(** * DiagnoML lab mock service: a shallow embedding of [src/mocks/lab_mock.py]

    The development follows the Python module top to bottom: the Pydantic
    models, the static table [LAB_REFERENCE_RANGES], the generator
    [generate_lab_value] and the three API handlers.

    Modelling conventions.
    - A Python [float] is modelled by the exact rational ([Q]) it denotes.
      The built-in [round(x, 2)] is the hundredth nearest to [x], ties to
      even; Python then stores the double nearest to that decimal, a step
      the model leaves out.  [max(0, x)] keeps its first argument unless
      the second is strictly greater, as the built-in does.
    - The module [random] and the clock [datetime.utcnow] are the only
      effects.  They are an interface ([Env]) over an abstract world state;
      the interface carries the documented ranges of [random.random],
      [random.uniform] and [random.randint].  [random.gauss] is unconstrained.
    - A handler is a computation in a state-and-exception monad over the
      world: it returns either a raised exception or a value, and the new
      world.
    - A Python [dict] is an association list in insertion order, since the
      handlers iterate over the table and print its keys in that order. *)

From Stdlib Require Import QArith ZArith String Ascii List Bool Lia Lqa.
From Stdlib Require Import Sorted.
Import ListNotations.

Local Open Scope string_scope.
Local Open Scope Z_scope.
Local Open Scope Q_scope.

(* ===================================================================== *)
(** ** Python built-ins used by the module *)

(** [a < b] on floats. *)
Definition Qltb (a b : Q) : bool := negb (Qle_bool b a).

(** [max(a, b)]: the first argument is kept unless [b > a]. *)
Definition py_max (a b : Q) : Q := if Qltb a b then b else a.

(** Nearest integer, ties to the even neighbour. *)
Definition round_half_even (q : Q) : Z :=
  let n := Qnum q in
  let d := Z.pos (Qden q) in
  let fl := (n / d)%Z in
  match (2 * (n mod d) ?= d)%Z with
  | Lt => fl
  | Gt => (fl + 1)%Z
  | Eq => if Z.even fl then fl else (fl + 1)%Z
  end.

(** [round(x, ndigits)] for [ndigits >= 0]. *)
Definition py_round (x : Q) (ndigits : nat) : Q :=
  let scale := Z.to_pos (10 ^ Z.of_nat ndigits) in
  Qmake (round_half_even (x * inject_Z (Z.pos scale))) scale.

(** [str(n)] for an [int]: decimal digits, most significant first. *)
Definition digit_char (d : Z) : ascii := ascii_of_nat (48 + Z.to_nat d).

Fixpoint str_digits (fuel : nat) (n : Z) (acc : string) : string :=
  match fuel with
  | O => acc
  | S fuel' =>
      let acc' := String (digit_char (n mod 10)) acc in
      if (n / 10 =? 0)%Z then acc' else str_digits fuel' (n / 10) acc'
  end.

Definition py_str_int (n : Z) : string :=
  if (n <? 0)%Z
  then "-" ++ str_digits (S (Z.to_nat (Z.log2 (- n)))) (- n) ""
  else str_digits (S (Z.to_nat (Z.log2 n))) n "".

(** [repr(s)] for a [str] that holds no quote, backslash or non-printable
    character (every key of the table is such a string). *)
Definition py_repr_str (s : string) : string := "'" ++ s ++ "'".

(** [str(l)] for a list of such strings: ['a', 'b', 'c']. *)
Definition py_str_list (l : list string) : string :=
  "[" ++ String.concat ", " (map py_repr_str l) ++ "]".

Definition is_digit (c : ascii) : bool :=
  let n := nat_of_ascii c in (48 <=? n)%nat && (n <=? 57)%nat.

Fixpoint string_forallb (p : ascii -> bool) (s : string) : bool :=
  match s with
  | EmptyString => true
  | String c s' => p c && string_forallb p s'
  end.

(* ===================================================================== *)
(** ** Dictionaries with string keys, in insertion order *)

Section Dict.
Context {V : Type}.

Definition dict := list (string * V).

(** [d.get(k)] *)
Fixpoint dict_get (d : dict) (k : string) : option V :=
  match d with
  | [] => None
  | (k', v) :: d' => if String.eqb k k' then Some v else dict_get d' k
  end.

(** [k in d] *)
Definition dict_contains (d : dict) (k : string) : bool :=
  match dict_get d k with Some _ => true | None => false end.

(** [d.keys()] and [d.items()] *)
Definition dict_keys (d : dict) : list string := map fst d.
Definition dict_items (d : dict) : list (string * V) := d.

(** [d[k] = v]: an existing key keeps its position. *)
Fixpoint dict_set (d : dict) (k : string) (v : V) : dict :=
  match d with
  | [] => [(k, v)]
  | (k', v') :: d' =>
      if String.eqb k k' then (k', v) :: d' else (k', v') :: dict_set d' k v
  end.
End Dict.

Arguments dict V : clear implicits.

(* ===================================================================== *)
(** ** The Pydantic models and the exceptions *)

(** [datetime]: microseconds since the epoch, naive UTC. *)
Definition datetime := Z.

(** One inner dictionary of [LAB_REFERENCE_RANGES]; the seven keys are the
    same in every entry, so it is a record. *)
Module TestProfile.
Record t := mk {
  unit : string;
  min : Q;
  max : Q;
  normal_mean : Q;
  normal_std : Q;
  abnormal_mean : Q;
  abnormal_std : Q
}.
End TestProfile.

Module LabRequest.
Record t := mk {
  patient_id : string;
  test_types : list string
}.

(** The default of the field [test_types]. *)
Definition default_test_types : list string :=
  ["hba1c"; "cholesterol"; "crp"].

(** A request whose body leaves [test_types] out. *)
Definition of_body (patient_id : string) (test_types : option (list string)) : t :=
  match test_types with
  | Some l => mk patient_id l
  | None => mk patient_id default_test_types
  end.
End LabRequest.

Module LabResult.
Record t := mk {
  test_type : string;
  value : Q;
  unit : string;
  reference_min : Q;
  reference_max : Q;
  timestamp : datetime
}.
End LabResult.

Module LabResponse.
Record t := mk {
  patient_id : string;
  results : list LabResult.t;
  lab_id : string;
  processed_at : datetime
}.
End LabResponse.

(** What a handler can raise: [HTTPException(status_code, detail)], and the
    [KeyError] of a subscript on a missing key. *)
Inductive exn : Type :=
| HTTPException (status_code : Z) (detail : string)
| KeyError (key : string).

(* ===================================================================== *)
(** ** The reference table *)

Definition LAB_REFERENCE_RANGES : dict TestProfile.t :=
  [ ("hba1c",
     TestProfile.mk "%" 4.0 5.6 5.2 0.3 7.5 1.5);
    ("cholesterol_total",
     TestProfile.mk "mg/dL" 0 200 180 20 260 40);
    ("cholesterol_ldl",
     TestProfile.mk "mg/dL" 0 100 90 15 150 30);
    ("cholesterol_hdl",
     TestProfile.mk "mg/dL" 40 60 55 10 35 8);
    ("crp",
     TestProfile.mk "mg/L" 0 3.0 1.0 0.5 8.0 3.0);
    ("glucose_fasting",
     TestProfile.mk "mg/dL" 70 100 90 8 140 30);
    ("triglycerides",
     TestProfile.mk "mg/dL" 0 150 100 25 220 50) ].

(* ===================================================================== *)
(** ** The environment: the [random] module and the clock *)

Class Env (W : Type) : Type := {
  (** [random.random()], in [0, 1) *)
  random : W -> Q * W;
  (** [random.uniform(a, b)], in [a, b] *)
  uniform : Q -> Q -> W -> Q * W;
  (** [random.gauss(mu, sigma)] *)
  gauss : Q -> Q -> W -> Q * W;
  (** [random.randint(a, b)], in [a, b] *)
  randint : Z -> Z -> W -> Z * W;
  (** [datetime.utcnow()] *)
  utcnow : W -> datetime * W;

  random_range : forall w, 0 <= fst (random w) /\ fst (random w) < 1;
  uniform_range : forall a b w,
    a <= b -> a <= fst (uniform a b w) /\ fst (uniform a b w) <= b;
  randint_range : forall a b w,
    (a <= b)%Z -> (a <= fst (randint a b w) <= b)%Z
}.

(* ===================================================================== *)
(** ** The monad of handlers: world state and exceptions *)

Definition M (W A : Type) : Type := W -> (exn + A) * W.

Definition ret {W A} (a : A) : M W A := fun w => (inr a, w).

Definition bind {W A B} (c : M W A) (k : A -> M W B) : M W B :=
  fun w =>
    match c w with
    | (inl e, w') => (inl e, w')
    | (inr a, w') => k a w'
    end.

Definition raise {W A} (e : exn) : M W A := fun w => (inl e, w).

(** An operation of the environment, which cannot raise. *)
Definition perform {W A} (op : W -> A * W) : M W A :=
  fun w => let (a, w') := op w in (inr a, w').

Declare Scope monad_scope.
Delimit Scope monad_scope with monad.
Notation "x <- c ;; k" := (bind c (fun x => k))
  (at level 61, c at next level, right associativity) : monad_scope.
Local Open Scope monad_scope.

(** [d[k]] *)
Definition dict_getitem {W V} (d : dict V) (k : string) : M W V :=
  match dict_get d k with
  | Some v => ret v
  | None => raise (KeyError k)
  end.

(* ===================================================================== *)
(** ** The generator and the handlers *)

Section Handlers.
Context {W : Type} {E : Env W}.

(** The default of [abnormal_probability]. *)
Definition default_abnormal_probability : Q := 0.3.

Definition generate_lab_value (test_type : string) (abnormal_probability : Q)
  : M W Q :=
  if negb (dict_contains LAB_REFERENCE_RANGES test_type) then
    u <- perform (uniform 0 100) ;;
    ret (py_round u 2)
  else
    config <- dict_getitem LAB_REFERENCE_RANGES test_type ;;
    r <- perform random ;;
    let is_abnormal := Qltb r abnormal_probability in
    value <- (if is_abnormal
              then perform (gauss (TestProfile.abnormal_mean config)
                                  (TestProfile.abnormal_std config))
              else perform (gauss (TestProfile.normal_mean config)
                                  (TestProfile.normal_std config))) ;;
    ret (py_round (py_max 0 value) 2).

(** The loop of [request_lab_results]; [results] is the list built so far. *)
Fixpoint request_loop (test_types : list string) (results : list LabResult.t)
  : M W (list LabResult.t) :=
  match test_types with
  | [] => ret results
  | test_type :: rest =>
      if negb (dict_contains LAB_REFERENCE_RANGES test_type) then
        request_loop rest results
      else
        config <- dict_getitem LAB_REFERENCE_RANGES test_type ;;
        value <- generate_lab_value test_type default_abnormal_probability ;;
        timestamp <- perform utcnow ;;
        request_loop rest
          (results ++ [LabResult.mk test_type value
                         (TestProfile.unit config)
                         (TestProfile.min config)
                         (TestProfile.max config)
                         timestamp])
  end.

Definition no_valid_detail : string :=
  "No valid test types provided. Available: "
    ++ py_str_list (dict_keys LAB_REFERENCE_RANGES).

Definition request_lab_results (request : LabRequest.t) : M W LabResponse.t :=
  results <- request_loop (LabRequest.test_types request) [] ;;
  match results with
  | [] => raise (HTTPException 400 no_valid_detail)
  | _ :: _ =>
      n <- perform (randint 100000 999999) ;;
      processed_at <- perform utcnow ;;
      ret (LabResponse.mk (LabRequest.patient_id request) results
             ("LAB-" ++ py_str_int n) processed_at)
  end.

(** The loop of [get_lab_results], over the items of the table. *)
Fixpoint panel_loop (items : list (string * TestProfile.t))
    (results : list LabResult.t) : M W (list LabResult.t) :=
  match items with
  | [] => ret results
  | (test_type, config) :: rest =>
      value <- generate_lab_value test_type default_abnormal_probability ;;
      timestamp <- perform utcnow ;;
      panel_loop rest
        (results ++ [LabResult.mk test_type value
                       (TestProfile.unit config)
                       (TestProfile.min config)
                       (TestProfile.max config)
                       timestamp])
  end.

Definition get_lab_results (patient_id : string) : M W LabResponse.t :=
  results <- panel_loop (dict_items LAB_REFERENCE_RANGES) [] ;;
  n <- perform (randint 100000 999999) ;;
  processed_at <- perform utcnow ;;
  ret (LabResponse.mk patient_id results ("LAB-" ++ py_str_int n) processed_at).
End Handlers.

(** *** [list_available_tests]: a pure read of the table *)

Module ReferenceRange.
Record t := mk { min : Q; max : Q }.
End ReferenceRange.

Module TestInfo.
Record t := mk { unit : string; reference_range : ReferenceRange.t }.
End TestInfo.

Module AvailableTests.
Record t := mk { tests : dict TestInfo.t }.
End AvailableTests.

(** The dictionary comprehension: one assignment per item, in order. *)
Definition tests_comprehension (items : list (string * TestProfile.t))
  : dict TestInfo.t :=
  fold_left
    (fun acc item =>
       let '(test_type, config) := item in
       dict_set acc test_type
         (TestInfo.mk (TestProfile.unit config)
            (ReferenceRange.mk (TestProfile.min config) (TestProfile.max config))))
    items [].

Definition list_available_tests : AvailableTests.t :=
  AvailableTests.mk (tests_comprehension (dict_items LAB_REFERENCE_RANGES)).

(** *** [health_check] and [root]: the two constant endpoints *)

Module HealthInfo.
Record t := mk { status : string; service : string }.
End HealthInfo.

Definition health_check : HealthInfo.t :=
  HealthInfo.mk "healthy" "lab-mock".

Module RootInfo.
Record t := mk {
  service : string;
  version : string;
  available_tests : list string
}.
End RootInfo.

(** [available_tests] is [list(LAB_REFERENCE_RANGES.keys())]. *)
Definition root : RootInfo.t :=
  RootInfo.mk "DiagnoML Lab Mock Service" "1.0.0"
    (dict_keys LAB_REFERENCE_RANGES).

(* ===================================================================== *)
(** ** The generator as the specification words it

    Written in explicit state passing from the contract of the generator:
    one uniform draw decides between the abnormal and the normal population
    of the profile, one Gaussian sample is taken from it, and the sample is
    clamped at zero and rounded to two decimals. *)

Section Reference.
Context {W : Type} {E : Env W}.

(** A sample of Normal(mean, std). *)
Definition Normal (mean std : Q) : W -> Q * W := gauss mean std.

(** Clamp to a non-negative value. *)
Definition clamp_nonneg (x : Q) : Q := if Qle_bool x 0 then 0 else x.

Definition spec_generate (profile : TestProfile.t) (abnormal_probability : Q)
    (w : W) : Q * W :=
  let (u, w1) := random w in
  let (sample, w2) :=
    match Qlt_le_dec u abnormal_probability with
    | left _ =>
        Normal (TestProfile.abnormal_mean profile)
               (TestProfile.abnormal_std profile) w1
    | right _ =>
        Normal (TestProfile.normal_mean profile)
               (TestProfile.normal_std profile) w1
    end in
  (py_round (clamp_nonneg sample) 2, w2).
End Reference.

(* ===================================================================== *)
(** ** Vocabulary of the statements *)

(** A value with at most two decimal places: an integer number of
    hundredths. *)
Definition two_decimals (v : Q) : Prop := exists k : Z, v = Qmake k 100.

(** An identifier [LAB-] followed by the six digits of an integer between
    100000 and 999999. *)
Definition lab_id_format (s : string) : Prop :=
  exists n : Z,
    s = "LAB-" ++ py_str_int n
    /\ (100000 <= n <= 999999)%Z
    /\ String.length (py_str_int n) = 6%nat
    /\ string_forallb is_digit (py_str_int n) = true.

(** The test type of a result is a key of the table. *)
Definition known_type (r : LabResult.t) : Prop :=
  dict_contains LAB_REFERENCE_RANGES (LabResult.test_type r) = true.

(** A result built from the table entry of its test type, with a value
    as the generator returns it for a known type. *)
Definition from_table (r : LabResult.t) : Prop :=
  exists config,
    dict_get LAB_REFERENCE_RANGES (LabResult.test_type r) = Some config
    /\ LabResult.unit r = TestProfile.unit config
    /\ LabResult.reference_min r = TestProfile.min config
    /\ LabResult.reference_max r = TestProfile.max config
    /\ 0 <= LabResult.value r
    /\ two_decimals (LabResult.value r).

(** The entry of [list_available_tests] for one profile of the table. *)
Definition test_info (config : TestProfile.t) : TestInfo.t :=
  TestInfo.mk (TestProfile.unit config)
    (ReferenceRange.mk (TestProfile.min config) (TestProfile.max config)).

Section Respond.
Context {W : Type} {E : Env W}.

(** The response both handlers build once the results are there. *)
Definition respond (patient_id : string) (results : list LabResult.t) (w : W)
  : LabResponse.t * W :=
  let n := fst (randint 100000 999999 w) in
  let w1 := snd (randint 100000 999999 w) in
  (LabResponse.mk patient_id results ("LAB-" ++ py_str_int n) (fst (utcnow w1)),
   snd (utcnow w1)).
End Respond.

(** The order of two results by their timestamps. *)
Definition timestamp_le (a b : LabResult.t) : Prop :=
  (LabResult.timestamp a <= LabResult.timestamp b)%Z.

Section Clock.
Context {W : Type} {E : Env W}.

(** A clock that never runs backwards.  [now w] is a time the clock has
    reached in the world [w]: a reading is not before it, the world after a
    reading has reached that reading, and a draw from the random source
    does not set the clock back. *)
Record monotone_clock (now : W -> datetime) : Prop := {
  utcnow_reached : forall w, (now w <= fst (utcnow w))%Z;
  utcnow_advances : forall w, (fst (utcnow w) <= now (snd (utcnow w)))%Z;
  random_keeps_clock : forall w, (now w <= now (snd (random w)))%Z;
  uniform_keeps_clock : forall a b w, (now w <= now (snd (uniform a b w)))%Z;
  gauss_keeps_clock : forall mu sigma w,
    (now w <= now (snd (gauss mu sigma w)))%Z;
  randint_keeps_clock : forall a b w, (now w <= now (snd (randint a b w)))%Z
}.
End Clock.

(** The value of a string of decimal digits, read from the left onto [acc]. *)
Fixpoint digits_value (s : string) (acc : Z) : Z :=
  match s with
  | EmptyString => acc
  | String c s' => digits_value s' (acc * 10 + (Z.of_nat (nat_of_ascii c) - 48))%Z
  end.

(* ===================================================================== *)
(** ** A concrete environment

    A linear congruential generator and a ticking clock.  It shows that the
    interface [Env] is inhabited and lets the handlers run on concrete
    inputs. *)

Module Lcg.
Record world := mk { seed : Z; clock : Z }.

Definition modulus : positive := 2147483648.

Definition next (s : Z) : Z := ((1103515245 * s + 12345) mod Z.pos modulus)%Z.

Definition random (w : world) : Q * world :=
  let s := next (seed w) in (Qmake s modulus, mk s (clock w)).

(** [a + (b - a) * random()] *)
Definition uniform (a b : Q) (w : world) : Q * world :=
  let (r, w') := random w in (a + (b - a) * r, w').

(** [mu + z * sigma], with a crude [z] in [-3, 3). *)
Definition gauss (mu sigma : Q) (w : world) : Q * world :=
  let (r, w') := random w in (mu + (6 * r - 3) * sigma, w').

Definition randint (a b : Z) (w : world) : Z * world :=
  let s := next (seed w) in ((a + s mod (b - a + 1))%Z, mk s (clock w)).

Definition utcnow (w : world) : datetime * world :=
  (clock w, mk (seed w) (clock w + 1)).

Lemma random_range (w : world) :
  0 <= fst (random w) /\ fst (random w) < 1.
Proof.
  pose proof (Z.mod_pos_bound (1103515245 * seed w + 12345) (Z.pos modulus)
                eq_refl) as [Hlo Hhi].
  fold (next (seed w)) in Hlo, Hhi.
  unfold random; cbn [fst]. generalize dependent (next (seed w)).
  intros s Hlo Hhi. unfold Qle, Qlt; cbn [Qnum Qden]. split; lia.
Qed.

Lemma uniform_range (a b : Q) (w : world) :
  a <= b -> a <= fst (uniform a b w) /\ fst (uniform a b w) <= b.
Proof.
  intros Hab. unfold uniform.
  pose proof (random_range w) as [Hlo Hhi].
  destruct (random w) as [r w']; simpl in *.
  assert (H0 : 0 <= (b - a) * r) by (apply Qmult_le_0_compat; lra).
  assert (H1 : 0 <= (b - a) * (1 - r)) by (apply Qmult_le_0_compat; lra).
  split; lra.
Qed.

Lemma randint_range (a b : Z) (w : world) :
  (a <= b)%Z -> (a <= fst (randint a b w) <= b)%Z.
Proof.
  intros Hab. unfold randint; simpl.
  pose proof (Z.mod_pos_bound (next (seed w)) (b - a + 1) ltac:(lia)).
  lia.
Qed.

#[export] Instance env : Env world :=
  Build_Env world random uniform gauss randint utcnow
    random_range uniform_range randint_range.

(** The world the examples start from. *)
Definition w0 : world := mk 42 1700000000000000.
End Lcg.

(* ===================================================================== *)
(** * Properties *)

(** ** Rounding and clamping *)

Lemma Qltb_true (a b : Q) : Qltb a b = true <-> a < b.
Proof.
  unfold Qltb. rewrite negb_true_iff.
  destruct (Qle_bool b a) eqn:Hle.
  - apply Qle_bool_iff in Hle. split; [discriminate | intros; lra].
  - split; [intros _ | reflexivity].
    apply Qnot_le_lt. intros H. apply Qle_bool_iff in H. congruence.
Qed.

Lemma py_max_nonneg (v : Q) : 0 <= py_max 0 v.
Proof.
  unfold py_max. destruct (Qltb 0 v) eqn:H.
  - apply Qltb_true in H. lra.
  - lra.
Qed.

Lemma py_max_clamp (v : Q) :
  (0 < v -> py_max 0 v = v) /\ (v <= 0 -> py_max 0 v = 0).
Proof.
  unfold py_max. destruct (Qltb 0 v) eqn:H; split; intros Hv; try reflexivity.
  - apply Qltb_true in H. lra.
  - apply Qltb_true in Hv. congruence.
Qed.

Lemma round_half_even_lower (a : Z) (q : Q) :
  inject_Z a <= q -> (a <= round_half_even q)%Z.
Proof.
  destruct q as [n d]. unfold Qle, round_half_even; cbn [Qnum Qden inject_Z].
  intros H.
  assert (Hfl : (a <= n / Z.pos d)%Z) by (apply Z.div_le_lower_bound; lia).
  destruct (2 * (n mod Z.pos d) ?= Z.pos d)%Z; [destruct (Z.even _) | |]; lia.
Qed.

Lemma round_half_even_upper (b : Z) (q : Q) :
  q <= inject_Z b -> (round_half_even q <= b)%Z.
Proof.
  destruct q as [n d]. unfold Qle, round_half_even; cbn [Qnum Qden inject_Z].
  intros H.
  pose proof (Z.div_mod n (Z.pos d) ltac:(lia)) as Hdm.
  pose proof (Z.mod_pos_bound n (Z.pos d) ltac:(lia)) as Hr.
  destruct (Z_le_gt_dec (n / Z.pos d + 1) b) as [Hlt | Hge].
  - destruct (2 * (n mod Z.pos d) ?= Z.pos d)%Z; [destruct (Z.even _) | |]; lia.
  - assert (Hfl : (n / Z.pos d <= b)%Z).
    { apply Z.div_le_upper_bound; lia. }
    assert (Heq : (n / Z.pos d = b)%Z) by lia.
    assert (H0 : (n mod Z.pos d = 0)%Z) by nia.
    rewrite H0. cbn [Z.mul Z.compare]. lia.
Qed.

(** The rounded integer is within one half of the rational. *)
Lemma round_half_even_close (q : Q) :
  (2 * Z.abs (round_half_even q * Z.pos (Qden q) - Qnum q) <= Z.pos (Qden q))%Z.
Proof.
  destruct q as [n d]. unfold round_half_even; cbn [Qnum Qden].
  pose proof (Z.div_mod n (Z.pos d) ltac:(lia)) as Hdm.
  pose proof (Z.mod_pos_bound n (Z.pos d) ltac:(lia)) as Hr.
  set (fl := (n / Z.pos d)%Z) in *. set (r := (n mod Z.pos d)%Z) in *.
  assert (Hdn : (fl * Z.pos d - n = - r)%Z) by lia.
  assert (Hup : ((fl + 1) * Z.pos d - n = Z.pos d - r)%Z) by lia.
  clearbody fl r.
  destruct (Z.compare_spec (2 * r) (Z.pos d)) as [Hc | Hc | Hc].
  - destruct (Z.even fl); [rewrite Hdn | rewrite Hup]; lia.
  - rewrite Hdn. lia.
  - rewrite Hup. lia.
Qed.

Lemma py_round_2_unfold (x : Q) :
  py_round x 2 = Qmake (round_half_even (x * 100)) 100.
Proof. reflexivity. Qed.

Lemma py_round_2_two_decimals (x : Q) : two_decimals (py_round x 2).
Proof. rewrite py_round_2_unfold. eexists; reflexivity. Qed.

Lemma py_round_2_lower (a : Z) (x : Q) :
  inject_Z a <= x -> inject_Z a <= py_round x 2.
Proof.
  intros H. rewrite py_round_2_unfold.
  assert (Hs : inject_Z (a * 100) <= x * 100).
  { rewrite inject_Z_mult. change (inject_Z 100) with 100. nra. }
  apply round_half_even_lower in Hs.
  unfold Qle; cbn [Qnum Qden inject_Z]. lia.
Qed.

Lemma py_round_2_upper (b : Z) (x : Q) :
  x <= inject_Z b -> py_round x 2 <= inject_Z b.
Proof.
  intros H. rewrite py_round_2_unfold.
  assert (Hs : x * 100 <= inject_Z (b * 100)).
  { rewrite inject_Z_mult. change (inject_Z 100) with 100. nra. }
  apply round_half_even_upper in Hs.
  unfold Qle; cbn [Qnum Qden inject_Z]. lia.
Qed.

(** [round(x, 2)] is a nearest hundredth of [x]. *)
Lemma py_round_2_close (x : Q) :
  x - 0.005 <= py_round x 2 /\ py_round x 2 <= x + 0.005.
Proof.
  rewrite py_round_2_unfold.
  pose proof (round_half_even_close (x * 100)) as H.
  destruct x as [n d]. cbn [Qmult Qnum Qden] in H.
  unfold Qle, Qminus, Qplus, Qopp; cbn [Qnum Qden Qmult].
  split; nia.
Qed.

(** ** Printing an integer *)

Lemma digit_char_is_digit (d : Z) :
  (0 <= d < 10)%Z -> is_digit (digit_char d) = true.
Proof.
  intros H.
  assert (Hd : (d = 0 \/ d = 1 \/ d = 2 \/ d = 3 \/ d = 4 \/ d = 5 \/ d = 6
                \/ d = 7 \/ d = 8 \/ d = 9)%Z) by lia.
  repeat (destruct Hd as [-> | Hd]; [reflexivity |]); subst d; reflexivity.
Qed.

(** A number of [k + 1] decimal digits is printed on [k + 1] characters,
    all of them digits, in front of the accumulator. *)
Lemma str_digits_spec (k : nat) :
  forall (fuel : nat) (n : Z) (acc : string),
    (k < fuel)%nat ->
    (0 <= n < 10 ^ Z.of_nat (S k))%Z ->
    (k <> O -> 10 ^ Z.of_nat k <= n)%Z ->
    String.length (str_digits fuel n acc) = (S k + String.length acc)%nat
    /\ (string_forallb is_digit acc = true ->
        string_forallb is_digit (str_digits fuel n acc) = true).
Proof.
  induction k as [| k IH]; intros fuel n acc Hfuel Hn Hlow.
  - destruct fuel as [| fuel]; [lia |]. cbn [str_digits].
    change (10 ^ Z.of_nat 1)%Z with 10%Z in Hn.
    assert (Hq : (n / 10 = 0)%Z) by (apply Z.div_small; lia).
    rewrite Hq. cbn [Z.eqb]. split; [reflexivity |].
    intros Hacc. cbn [string_forallb]. rewrite Hacc, digit_char_is_digit.
    + reflexivity.
    + apply Z.mod_pos_bound; lia.
  - destruct fuel as [| fuel]; [lia |]. cbn [str_digits].
    assert (Hpow : (10 ^ Z.of_nat (S k) = 10 * 10 ^ Z.of_nat k)%Z).
    { rewrite Nat2Z.inj_succ, Z.pow_succ_r; lia. }
    assert (Hpow' : (10 ^ Z.of_nat (S (S k)) = 10 * 10 ^ Z.of_nat (S k))%Z).
    { rewrite (Nat2Z.inj_succ (S k)), Z.pow_succ_r; lia. }
    assert (Hpos : (0 < 10 ^ Z.of_nat k)%Z) by (apply Z.pow_pos_nonneg; lia).
    specialize (Hlow ltac:(discriminate)).
    assert (Hq1 : (10 ^ Z.of_nat k <= n / 10)%Z).
    { apply Z.div_le_lower_bound; lia. }
    assert (Hq2 : (n / 10 < 10 ^ Z.of_nat (S k))%Z).
    { apply Z.div_lt_upper_bound; lia. }
    destruct (Z.eqb_spec (n / 10) 0) as [H0 | _]; [lia |].
    destruct (IH fuel (n / 10)%Z (String (digit_char (n mod 10)) acc))
      as [Hlen Hdig]; [lia | lia | intros _; exact Hq1 |].
    split.
    + rewrite Hlen. cbn [String.length]. lia.
    + intros Hacc. apply Hdig. cbn [string_forallb].
      rewrite Hacc, digit_char_is_digit; [reflexivity |].
      apply Z.mod_pos_bound; lia.
Qed.

Lemma py_str_int_six_digits (n : Z) :
  (100000 <= n <= 999999)%Z ->
  String.length (py_str_int n) = 6%nat
  /\ string_forallb is_digit (py_str_int n) = true.
Proof.
  intros Hn. unfold py_str_int.
  destruct (Z.ltb_spec n 0) as [Hneg | _]; [lia |].
  assert (Hlog : (16 <= Z.log2 n)%Z).
  { change 16%Z with (Z.log2 100000). apply Z.log2_le_mono. lia. }
  destruct (str_digits_spec 5 (S (Z.to_nat (Z.log2 n))) n "") as [Hlen Hdig].
  - lia.
  - change (10 ^ Z.of_nat 6)%Z with 1000000%Z. lia.
  - intros _. change (10 ^ Z.of_nat 5)%Z with 100000%Z. lia.
  - split; [exact Hlen | apply Hdig; reflexivity].
Qed.

(** ** Dictionaries *)

Section DictFacts.
Context {V : Type}.
Implicit Types (d : dict V) (k : string) (v : V).

Lemma dict_contains_true d k :
  dict_contains d k = true <-> exists v, dict_get d k = Some v.
Proof.
  unfold dict_contains. destruct (dict_get d k) as [v |].
  - split; [intros _; now exists v | reflexivity].
  - split; [discriminate | intros [v Hv]; discriminate].
Qed.

Lemma dict_contains_false d k :
  dict_contains d k = false <-> dict_get d k = None.
Proof.
  unfold dict_contains. destruct (dict_get d k); split; congruence.
Qed.

Lemma dict_get_In d k v : dict_get d k = Some v -> In (k, v) d.
Proof.
  induction d as [| [k' v'] d IH]; cbn [dict_get]; [discriminate |].
  destruct (String.eqb_spec k k') as [-> | Hne]; intros H.
  - injection H as ->. now left.
  - right. now apply IH.
Qed.

Lemma dict_contains_keys d k :
  dict_contains d k = true <-> In k (dict_keys d).
Proof.
  rewrite dict_contains_true. unfold dict_keys.
  induction d as [| [k' v'] d IH]; cbn [dict_get map fst In].
  - split; [intros [v Hv]; discriminate | tauto].
  - destruct (String.eqb_spec k k') as [-> | Hne].
    + split; [now left | now exists v'].
    + rewrite IH. split; [tauto | intros [Heq | Hin]; [congruence | exact Hin]].
Qed.

Lemma dict_get_NoDup d k v :
  NoDup (dict_keys d) -> In (k, v) d -> dict_get d k = Some v.
Proof.
  unfold dict_keys.
  induction d as [| [k' v'] d IH]; cbn [dict_get map fst In]; [tauto |].
  intros Hnd [Heq | Hin].
  - injection Heq as -> ->. now rewrite String.eqb_refl.
  - inversion Hnd as [| ? ? Hnotin Hnd']; subst.
    destruct (String.eqb_spec k k') as [-> | Hne].
    + exfalso. apply Hnotin. apply (in_map fst) in Hin. exact Hin.
    + now apply IH.
Qed.

(** Assigning a fresh key appends it. *)
Lemma dict_set_fresh d k v :
  dict_get d k = None -> dict_set d k v = (d ++ [(k, v)])%list.
Proof.
  induction d as [| [k' v'] d IH]; cbn [dict_get dict_set app]; [reflexivity |].
  destruct (String.eqb k k'); [discriminate |].
  intros H. now rewrite IH.
Qed.
End DictFacts.

(** ** The table *)

Lemma LAB_REFERENCE_RANGES_keys :
  dict_keys LAB_REFERENCE_RANGES =
  ["hba1c"; "cholesterol_total"; "cholesterol_ldl"; "cholesterol_hdl";
   "crp"; "glucose_fasting"; "triglycerides"].
Proof. reflexivity. Qed.

Lemma LAB_REFERENCE_RANGES_NoDup : NoDup (dict_keys LAB_REFERENCE_RANGES).
Proof.
  rewrite LAB_REFERENCE_RANGES_keys.
  repeat (constructor; [cbn [In]; intuition discriminate |]).
  constructor.
Qed.

(** ** Running the monad *)

Section Run.
Context {W : Type}.

Lemma bind_ok {A B} (c : M W A) (k : A -> M W B) (w w' : W) (a : A) :
  c w = (inr a, w') -> bind c k w = k a w'.
Proof. unfold bind. now intros ->. Qed.

Lemma bind_raise {A B} (c : M W A) (k : A -> M W B) (w w' : W) (e : exn) :
  c w = (inl e, w') -> bind c k w = (inl e, w').
Proof. unfold bind. now intros ->. Qed.

Lemma perform_run {A} (op : W -> A * W) (w : W) :
  perform op w = (inr (fst (op w)), snd (op w)).
Proof. unfold perform. now destruct (op w). Qed.

Lemma dict_getitem_ok {V} (d : dict V) (k : string) (v : V) (w : W) :
  dict_get d k = Some v -> dict_getitem d k w = (inr v, w).
Proof. unfold dict_getitem. now intros ->. Qed.
End Run.

(** ** The generator *)

Section GeneratorFacts.
Context {W : Type} {E : Env W}.

(** The fallback branch. *)
Lemma generate_lab_value_unknown (test_type : string) (p : Q) (w : W) :
  dict_contains LAB_REFERENCE_RANGES test_type = false ->
  generate_lab_value test_type p w =
  (inr (py_round (fst (uniform 0 100 w)) 2), snd (uniform 0 100 w)).
Proof.
  intros H. unfold generate_lab_value. rewrite H. cbn [negb].
  now rewrite (bind_ok _ _ _ _ _ (perform_run _ w)).
Qed.

(** The branch of a known test type. *)
Lemma generate_lab_value_known (test_type : string) (p : Q) (w : W)
    (config : TestProfile.t) :
  dict_get LAB_REFERENCE_RANGES test_type = Some config ->
  let r := fst (random w) in
  let w1 := snd (random w) in
  let sample :=
    if Qltb r p
    then gauss (TestProfile.abnormal_mean config)
               (TestProfile.abnormal_std config) w1
    else gauss (TestProfile.normal_mean config)
               (TestProfile.normal_std config) w1 in
  generate_lab_value test_type p w =
  (inr (py_round (py_max 0 (fst sample)) 2), snd sample).
Proof.
  intros Hget r w1 sample. unfold generate_lab_value.
  assert (Hin : dict_contains LAB_REFERENCE_RANGES test_type = true).
  { apply dict_contains_true. now exists config. }
  rewrite Hin. cbn [negb].
  rewrite (bind_ok _ _ _ _ _ (dict_getitem_ok _ _ _ w Hget)).
  rewrite (bind_ok _ _ _ _ _ (perform_run _ w)).
  fold r w1. subst sample.
  destruct (Qltb r p);
    now rewrite (bind_ok _ _ _ _ _ (perform_run _ w1)).
Qed.

Lemma clamp_nonneg_py_max (x : Q) : clamp_nonneg x = py_max 0 x.
Proof. unfold clamp_nonneg, py_max, Qltb. now destruct (Qle_bool x 0). Qed.

(** The generator never raises. *)
Lemma generate_lab_value_total (test_type : string) (p : Q) (w : W) :
  exists v w', generate_lab_value test_type p w = (inr v, w').
Proof.
  destruct (dict_get LAB_REFERENCE_RANGES test_type) as [config |] eqn:Hget.
  - rewrite (generate_lab_value_known _ p w _ Hget). eauto.
  - apply dict_contains_false in Hget.
    rewrite (generate_lab_value_unknown _ p w Hget). eauto.
Qed.

(** What the generator returns for a known test type. *)
Lemma generate_lab_value_known_value (test_type : string) (p : Q) (w : W) :
  dict_contains LAB_REFERENCE_RANGES test_type = true ->
  exists v w', generate_lab_value test_type p w = (inr v, w')
               /\ 0 <= v /\ two_decimals v.
Proof.
  intros Hin. apply dict_contains_true in Hin as [config Hget].
  rewrite (generate_lab_value_known _ p w _ Hget).
  eexists _, _. split; [reflexivity |]. split.
  - apply (py_round_2_lower 0). apply py_max_nonneg.
  - apply py_round_2_two_decimals.
Qed.
End GeneratorFacts.

(** ** The loops of the handlers *)

Section LoopFacts.
Context {W : Type} {E : Env W}.

(** One iteration that appends a result. *)
Lemma append_result_run (test_type : string) (config : TestProfile.t) (w : W) :
  dict_get LAB_REFERENCE_RANGES test_type = Some config ->
  exists r w',
    from_table r /\ LabResult.test_type r = test_type
    /\ forall (k : LabResult.t -> M W (list LabResult.t)),
        (value <- generate_lab_value test_type default_abnormal_probability ;;
         timestamp <- perform utcnow ;;
         k (LabResult.mk test_type value (TestProfile.unit config)
              (TestProfile.min config) (TestProfile.max config) timestamp)) w
        = k r w'.
Proof.
  intros Hget.
  assert (Hin : dict_contains LAB_REFERENCE_RANGES test_type = true).
  { apply dict_contains_true. now exists config. }
  destruct (generate_lab_value_known_value test_type
              default_abnormal_probability w Hin) as (v & w1 & Hrun & Hv0 & Hv2).
  exists (LabResult.mk test_type v (TestProfile.unit config)
            (TestProfile.min config) (TestProfile.max config)
            (fst (utcnow w1))), (snd (utcnow w1)).
  split; [| split; [reflexivity |]].
  - exists config. unfold from_table.
    cbn [LabResult.test_type LabResult.unit LabResult.reference_min
         LabResult.reference_max LabResult.value].
    auto 7.
  - intros k. rewrite (bind_ok _ _ _ _ _ Hrun).
    now rewrite (bind_ok _ _ _ _ _ (perform_run _ w1)).
Qed.

Lemma request_loop_spec (test_types : list string) :
  forall (results : list LabResult.t) (w : W),
  exists rs w',
    request_loop test_types results w = (inr (results ++ rs)%list, w')
    /\ map LabResult.test_type rs
       = filter (dict_contains LAB_REFERENCE_RANGES) test_types
    /\ Forall from_table rs.
Proof.
  induction test_types as [| test_type rest IH]; intros results w;
    cbn [request_loop filter].
  - exists [], w. rewrite app_nil_r. repeat split; constructor.
  - destruct (dict_contains LAB_REFERENCE_RANGES test_type) eqn:Hin;
      cbn [negb].
    + apply dict_contains_true in Hin as [config Hget].
      rewrite (bind_ok _ _ _ _ _ (dict_getitem_ok _ _ _ w Hget)).
      destruct (append_result_run test_type config w Hget)
        as (r & w1 & Hr & Htt & Hstep).
      rewrite (Hstep (fun r => request_loop rest (results ++ [r])%list)).
      destruct (IH (results ++ [r])%list w1) as (rs & w' & Hrun & Hmap & Hall).
      exists (r :: rs), w'. rewrite Hrun, <- app_assoc. cbn [app map].
      rewrite Htt, Hmap. repeat split. now constructor.
    + exact (IH results w).
Qed.

Lemma panel_loop_spec (items : list (string * TestProfile.t)) :
  (forall k c, In (k, c) items -> dict_get LAB_REFERENCE_RANGES k = Some c) ->
  forall (results : list LabResult.t) (w : W),
  exists rs w',
    panel_loop items results w = (inr (results ++ rs)%list, w')
    /\ map LabResult.test_type rs = map fst items
    /\ Forall from_table rs.
Proof.
  induction items as [| [test_type config] rest IH]; intros Hitems results w;
    cbn [panel_loop].
  - exists [], w. rewrite app_nil_r. repeat split; constructor.
  - assert (Hget : dict_get LAB_REFERENCE_RANGES test_type = Some config).
    { apply Hitems. now left. }
    destruct (append_result_run test_type config w Hget)
      as (r & w1 & Hr & Htt & Hstep).
    rewrite (Hstep (fun r => panel_loop rest (results ++ [r])%list)).
    destruct (IH (fun k c H => Hitems k c (or_intror H)) (results ++ [r])%list w1)
      as (rs & w' & Hrun & Hmap & Hall).
    exists (r :: rs), w'. rewrite Hrun, <- app_assoc. cbn [app map fst].
    rewrite Htt, Hmap. repeat split. now constructor.
Qed.

Lemma request_lab_results_run (request : LabRequest.t) (w : W) :
  exists rs w1,
    map LabResult.test_type rs
    = filter (dict_contains LAB_REFERENCE_RANGES) (LabRequest.test_types request)
    /\ Forall from_table rs
    /\ request_lab_results request w =
       match rs with
       | [] => (inl (HTTPException 400 no_valid_detail), w1)
       | _ :: _ =>
           (inr (fst (respond (LabRequest.patient_id request) rs w1)),
            snd (respond (LabRequest.patient_id request) rs w1))
       end.
Proof.
  destruct (request_loop_spec (LabRequest.test_types request) [] w)
    as (rs & w1 & Hrun & Hmap & Hall).
  exists rs, w1. split; [exact Hmap |]. split; [exact Hall |].
  unfold request_lab_results. rewrite (bind_ok _ _ _ _ _ Hrun). cbn [app].
  destruct rs as [| r rs]; [reflexivity |].
  rewrite (bind_ok _ _ _ _ _ (perform_run _ w1)).
  now rewrite (bind_ok _ _ _ _ _ (perform_run _ _)).
Qed.

Lemma get_lab_results_run (patient_id : string) (w : W) :
  exists rs w1,
    map LabResult.test_type rs = dict_keys LAB_REFERENCE_RANGES
    /\ Forall from_table rs
    /\ get_lab_results patient_id w =
       (inr (fst (respond patient_id rs w1)), snd (respond patient_id rs w1)).
Proof.
  destruct (panel_loop_spec (dict_items LAB_REFERENCE_RANGES)
              (fun k c => dict_get_NoDup _ k c LAB_REFERENCE_RANGES_NoDup) [] w)
    as (rs & w1 & Hrun & Hmap & Hall).
  exists rs, w1. split; [exact Hmap |]. split; [exact Hall |].
  unfold get_lab_results. rewrite (bind_ok _ _ _ _ _ Hrun). cbn [app].
  rewrite (bind_ok _ _ _ _ _ (perform_run _ w1)).
  now rewrite (bind_ok _ _ _ _ _ (perform_run _ _)).
Qed.

(** The identifier of a response. *)
Lemma respond_lab_id (patient_id : string) (results : list LabResult.t) (w : W) :
  lab_id_format (LabResponse.lab_id (fst (respond patient_id results w))).
Proof.
  exists (fst (randint 100000 999999 w)). split; [reflexivity |].
  pose proof (randint_range 100000 999999 w ltac:(lia)) as Hn.
  split; [exact Hn |]. now apply py_str_int_six_digits.
Qed.

Lemma filter_nil_iff {A} (f : A -> bool) (l : list A) :
  filter f l = [] <-> forall x, In x l -> f x = false.
Proof.
  induction l as [| a l IH]; cbn [filter In]; [tauto |].
  destruct (f a) eqn:Hfa.
  - split; [discriminate |]. intros H. specialize (H a (or_introl eq_refl)).
    congruence.
  - rewrite IH. split.
    + intros H x [<- | Hx]; auto.
    + intros H x Hx. apply H. now right.
Qed.
End LoopFacts.

(* ===================================================================== *)
(** * The generator: refinement, range and rounding *)

Section GeneratorClaims.
Context {W : Type} {E : Env W}.

(** C4.  For a test type of the reference table and any abnormal
  probability, the generator is the reference definition on the same
  random source: one uniform draw, then one Gaussian sample with the
  abnormal parameters when the draw is below the probability and with the
  normal parameters otherwise, clamped and rounded; both leave the random
  source in the same state. *)
Theorem generate_lab_value_refines_spec
  (test_type : string) (abnormal_probability : Q) (config : TestProfile.t)
  (w : W) :
dict_get LAB_REFERENCE_RANGES test_type = Some config ->
generate_lab_value test_type abnormal_probability w =
(inr (fst (spec_generate config abnormal_probability w)),
 snd (spec_generate config abnormal_probability w)).
Proof.
intros Hget.
rewrite (generate_lab_value_known _ abnormal_probability w _ Hget).
unfold spec_generate, Normal.
destruct (random w) as [u w1]; cbn [fst snd].
destruct (Qlt_le_dec u abnormal_probability) as [Hlt | Hge].
- apply Qltb_true in Hlt. rewrite Hlt.
  destruct (gauss _ _ w1) as [sample w2]; cbn [fst snd].
  now rewrite clamp_nonneg_py_max.
- assert (Hf : Qltb u abnormal_probability = false).
  { destruct (Qltb u abnormal_probability) eqn:Hb; [| reflexivity].
    apply Qltb_true in Hb. lra. }
  rewrite Hf.
  destruct (gauss _ _ w1) as [sample w2]; cbn [fst snd].
  now rewrite clamp_nonneg_py_max.
Qed.

(** C5.  For a supported test type and any state of the random source, the
    generator returns a value that is non-negative and has two decimal
    places: a nearest hundredth of the clamped sample. *)
Theorem generate_lab_value_supported
    (test_type : string) (abnormal_probability : Q) (w : W) :
  dict_contains LAB_REFERENCE_RANGES test_type = true ->
  exists sample v w',
    generate_lab_value test_type abnormal_probability w = (inr v, w')
    /\ 0 <= v
    /\ two_decimals v
    /\ py_max 0 sample - 0.005 <= v /\ v <= py_max 0 sample + 0.005.
Proof.
  intros Hin. apply dict_contains_true in Hin as [config Hget].
  rewrite (generate_lab_value_known _ abnormal_probability w _ Hget).
  eexists _, _, _. split; [reflexivity |]. split; [| split].
  - apply (py_round_2_lower 0), py_max_nonneg.
  - apply py_round_2_two_decimals.
  - apply py_round_2_close.
Qed.

(** C6.  For a test type that is not a key of the reference table, the
  generator does not raise: it returns the draw of [uniform(0, 100)]
  rounded to two decimals, a value between 0 and 100. *)
Theorem generate_lab_value_unsupported
  (test_type : string) (abnormal_probability : Q) (w : W) :
dict_contains LAB_REFERENCE_RANGES test_type = false ->
exists v w',
  generate_lab_value test_type abnormal_probability w = (inr v, w')
  /\ v = py_round (fst (uniform 0 100 w)) 2
  /\ w' = snd (uniform 0 100 w)
  /\ 0 <= v /\ v <= 100
  /\ two_decimals v.
Proof.
intros Hin.
rewrite (generate_lab_value_unknown _ abnormal_probability w Hin).
eexists _, _. split; [reflexivity |].
split; [reflexivity |]. split; [reflexivity |].
destruct (uniform_range 0 100 w ltac:(lra)) as [Hlo Hhi].
split; [| split].
- now apply (py_round_2_lower 0).
- now apply (py_round_2_upper 100).
- apply py_round_2_two_decimals.
Qed.
End GeneratorClaims.

Lemma generate_lab_value_refines_spec_witness :
  dict_get LAB_REFERENCE_RANGES "hba1c"
  = Some (TestProfile.mk "%" 4.0 5.6 5.2 0.3 7.5 1.5)
  /\ generate_lab_value (E := Lcg.env) "hba1c" 0.3 Lcg.w0 =
     (inr (fst (spec_generate (E := Lcg.env)
                  (TestProfile.mk "%" 4.0 5.6 5.2 0.3 7.5 1.5) 0.3 Lcg.w0)),
      snd (spec_generate (E := Lcg.env)
             (TestProfile.mk "%" 4.0 5.6 5.2 0.3 7.5 1.5) 0.3 Lcg.w0)).
Proof.
  split; [reflexivity |].
  apply (generate_lab_value_refines_spec (E := Lcg.env)). reflexivity.
Defined.

Lemma generate_lab_value_supported_witness :
  dict_contains LAB_REFERENCE_RANGES "crp" = true
  /\ exists sample v w',
       generate_lab_value (E := Lcg.env) "crp" 0.3 Lcg.w0 = (inr v, w')
       /\ 0 <= v /\ two_decimals v
       /\ py_max 0 sample - 0.005 <= v /\ v <= py_max 0 sample + 0.005.
Proof.
  split; [reflexivity |].
  apply (generate_lab_value_supported (E := Lcg.env)). reflexivity.
Defined.

Lemma generate_lab_value_unsupported_witness :
  dict_contains LAB_REFERENCE_RANGES "cholesterol" = false
  /\ exists v w',
       generate_lab_value (E := Lcg.env) "cholesterol" 0.3 Lcg.w0 = (inr v, w')
       /\ v = py_round (fst (uniform (Env := Lcg.env) 0 100 Lcg.w0)) 2
       /\ w' = snd (uniform (Env := Lcg.env) 0 100 Lcg.w0)
       /\ 0 <= v /\ v <= 100 /\ two_decimals v.
Proof.
  split; [reflexivity |].
  apply (generate_lab_value_unsupported (E := Lcg.env)). reflexivity.
Defined.

(** Concrete runs of the generator on the linear congruential source. *)
Example generate_hba1c_run :
  fst (generate_lab_value (E := Lcg.env) "hba1c" 0.3 Lcg.w0) = inr 5.24.
Proof. vm_compute. reflexivity. Qed.

Example generate_unknown_run :
  fst (generate_lab_value (E := Lcg.env) "not_a_real_test" 0.3 Lcg.w0)
  = inr 58.23.
Proof. vm_compute. reflexivity. Qed.

(* ===================================================================== *)
(** * The handlers *)

Lemma from_table_known (r : LabResult.t) : from_table r -> known_type r.
Proof.
  intros (config & Hget & _). apply dict_contains_true. now exists config.
Qed.

Lemma filter_known_not_In (test_types : list string) (t : string) :
  dict_contains LAB_REFERENCE_RANGES t = false ->
  ~ In t (filter (dict_contains LAB_REFERENCE_RANGES) test_types).
Proof. intros Hf Hin. apply filter_In in Hin as [_ Ht]. congruence. Qed.

Section HandlerClaims.
Context {W : Type} {E : Env W}.

(** C1.  The request handler raises the 400 error, whose detail lists every
  key of the table, exactly when no requested test type is a key; when at
  least one is a key it returns a response; it raises nothing else. *)
Theorem request_lab_results_error_iff (request : LabRequest.t) (w : W) :
(fst (request_lab_results request w) = inl (HTTPException 400 no_valid_detail)
 <-> forall t, In t (LabRequest.test_types request) ->
               dict_contains LAB_REFERENCE_RANGES t = false)
/\ ((exists t, In t (LabRequest.test_types request)
               /\ dict_contains LAB_REFERENCE_RANGES t = true) ->
    exists response, fst (request_lab_results request w) = inr response)
/\ (forall e, fst (request_lab_results request w) = inl e ->
              e = HTTPException 400 no_valid_detail)
/\ no_valid_detail =
   "No valid test types provided. Available: ['hba1c', 'cholesterol_total', 'cholesterol_ldl', 'cholesterol_hdl', 'crp', 'glucose_fasting', 'triglycerides']".
Proof.
destruct (request_lab_results_run request w) as (rs & w1 & Hmap & _ & Hrun).
rewrite Hrun. rewrite <- filter_nil_iff, <- Hmap.
destruct rs as [| r rs]; cbn [fst map].
- repeat split; try reflexivity.
  + intros (t & Hin & Ht). exfalso.
    symmetry in Hmap. cbn [map] in Hmap.
    rewrite (proj1 (filter_nil_iff _ _) Hmap t Hin) in Ht. discriminate.
  + now intros e [= <-].
- repeat split; try discriminate.
  intros _. eexists. reflexivity.
Qed.

(** C2.  In a response of either handler every result has a test type that
  is a key of the table.  The request handler steps over a requested type
  that is not a key without drawing or raising, so the test types of its
  results are the requested ones that are keys, and no other type is among
  them. *)
Theorem results_test_types_in_table :
(forall request w response,
    fst (request_lab_results request w) = inr response ->
    Forall known_type (LabResponse.results response)
    /\ map LabResult.test_type (LabResponse.results response)
       = filter (dict_contains LAB_REFERENCE_RANGES)
           (LabRequest.test_types request)
    /\ forall t, dict_contains LAB_REFERENCE_RANGES t = false ->
                 ~ In t (map LabResult.test_type (LabResponse.results response)))
/\ (forall patient_id w response,
    fst (get_lab_results patient_id w) = inr response ->
    Forall known_type (LabResponse.results response))
/\ (forall t rest results w,
    dict_contains LAB_REFERENCE_RANGES t = false ->
    request_loop (t :: rest) results w = request_loop rest results w).
Proof.
split; [| split].
- intros request w response.
  destruct (request_lab_results_run request w) as (rs & w1 & Hmap & Hall & Hrun).
  rewrite Hrun. destruct rs as [| r rs]; cbn [fst]; [discriminate |].
  intros [= <-]. unfold respond; cbn [fst LabResponse.results].
  split; [| split].
  + eapply Forall_impl; [| exact Hall]. exact from_table_known.
  + exact Hmap.
  + intros t Ht. rewrite Hmap. now apply filter_known_not_In.
- intros patient_id w response.
  destruct (get_lab_results_run patient_id w) as (rs & w1 & _ & Hall & Hrun).
  rewrite Hrun. cbn [fst]. intros [= <-].
  unfold respond; cbn [fst LabResponse.results].
  eapply Forall_impl; [| exact Hall]. exact from_table_known.
- intros t rest results w Ht. cbn [request_loop]. now rewrite Ht.
Qed.

(** C3.  For every patient identifier the full-panel handler returns a
  response, and its results are one per key of the table, in the order of
  the table: seven results. *)
Theorem get_lab_results_full_panel (patient_id : string) (w : W) :
exists response,
  fst (get_lab_results patient_id w) = inr response
  /\ length (LabResponse.results response) = 7%nat
  /\ map LabResult.test_type (LabResponse.results response)
     = dict_keys LAB_REFERENCE_RANGES
  /\ NoDup (dict_keys LAB_REFERENCE_RANGES)
  /\ Forall from_table (LabResponse.results response).
Proof.
destruct (get_lab_results_run patient_id w) as (rs & w1 & Hmap & Hall & Hrun).
rewrite Hrun. eexists. split; [reflexivity |].
unfold respond; cbn [fst LabResponse.results].
split; [| split; [exact Hmap | split; [exact LAB_REFERENCE_RANGES_NoDup | exact Hall]]].
rewrite <- (length_map LabResult.test_type), Hmap. reflexivity.
Qed.

(** C7.  In the default list of test types, [cholesterol] is not a key of
  the table: a request that leaves [test_types] out is answered with two
  results, for [hba1c] and [crp] in this order, and none for a
  cholesterol test. *)
Theorem request_default_test_types (patient_id : string) (w : W) :
LabRequest.test_types (LabRequest.of_body patient_id None)
= ["hba1c"; "cholesterol"; "crp"]
/\ dict_contains LAB_REFERENCE_RANGES "cholesterol" = false
/\ exists response,
     fst (request_lab_results (LabRequest.of_body patient_id None) w)
     = inr response
     /\ length (LabResponse.results response) = 2%nat
     /\ map LabResult.test_type (LabResponse.results response)
        = ["hba1c"; "crp"]
     /\ Forall (fun r => String.prefix "cholesterol" (LabResult.test_type r)
                         = false)
          (LabResponse.results response).
Proof.
split; [reflexivity |]. split; [reflexivity |].
destruct (request_lab_results_run (LabRequest.of_body patient_id None) w)
  as (rs & w1 & Hmap & _ & Hrun).
change (filter _ _) with ["hba1c"; "crp"] in Hmap.
rewrite Hrun.
destruct rs as [| r1 [| r2 [| r3 rs]]]; try discriminate Hmap.
injection Hmap as H1 H2.
eexists. split; [reflexivity |].
unfold respond; cbn [fst LabResponse.results length map].
rewrite H1, H2. repeat split.
repeat constructor; [rewrite H1 | rewrite H2]; reflexivity.
Qed.

(** C8.  For every patient identifier, a request for [hba1c] alone is
  answered with exactly one result, of test type [hba1c], unit [%],
  reference minimum 4.0 and reference maximum 5.6. *)
Theorem request_hba1c (patient_id : string) (w : W) :
exists response r,
  fst (request_lab_results (LabRequest.mk patient_id ["hba1c"]) w)
  = inr response
  /\ LabResponse.results response = [r]
  /\ LabResult.test_type r = "hba1c"
  /\ LabResult.unit r = "%"
  /\ LabResult.reference_min r = 4.0
  /\ LabResult.reference_max r = 5.6.
Proof.
destruct (request_lab_results_run (LabRequest.mk patient_id ["hba1c"]) w)
  as (rs & w1 & Hmap & Hall & Hrun).
change (filter _ _) with ["hba1c"] in Hmap.
rewrite Hrun.
destruct rs as [| r [| r2 rs]]; try discriminate Hmap.
injection Hmap as Htt.
inversion Hall as [| ? ? (config & Hget & Hu & Hmin & Hmax & _) _]; subst.
rewrite Htt in Hget. injection Hget as <-.
exists (fst (respond patient_id [r] w1)), r.
unfold respond; cbn [fst LabResponse.results].
repeat split; assumption.
Qed.

(** C10.  A response of either handler carries the patient identifier it
  was given; its results follow the order of the request (for the request
  handler) or of the table (for the full panel); its [lab_id] is [LAB-]
  followed by the six digits of an integer between 100000 and 999999. *)
Theorem response_patient_order_lab_id :
(forall request w response,
    fst (request_lab_results request w) = inr response ->
    LabResponse.patient_id response = LabRequest.patient_id request
    /\ map LabResult.test_type (LabResponse.results response)
       = filter (dict_contains LAB_REFERENCE_RANGES)
           (LabRequest.test_types request)
    /\ lab_id_format (LabResponse.lab_id response))
/\ (forall patient_id w response,
    fst (get_lab_results patient_id w) = inr response ->
    LabResponse.patient_id response = patient_id
    /\ map LabResult.test_type (LabResponse.results response)
       = dict_keys LAB_REFERENCE_RANGES
    /\ lab_id_format (LabResponse.lab_id response)).
Proof.
split.
- intros request w response.
  destruct (request_lab_results_run request w) as (rs & w1 & Hmap & _ & Hrun).
  rewrite Hrun. destruct rs as [| r rs]; cbn [fst]; [discriminate |].
  intros [= <-]. split; [reflexivity |]. split; [exact Hmap |].
  apply respond_lab_id.
- intros patient_id w response.
  destruct (get_lab_results_run patient_id w) as (rs & w1 & Hmap & _ & Hrun).
  rewrite Hrun. cbn [fst]. intros [= <-].
  split; [reflexivity |]. split; [exact Hmap |].
  apply respond_lab_id.
Qed.
End HandlerClaims.

(** ** The list of available tests *)

Lemma dict_get_map_values {A B} (f : A -> B) (d : dict A) (k : string) :
  dict_get (map (fun item => (fst item, f (snd item))) d) k
  = option_map f (dict_get d k).
Proof.
  induction d as [| [k' v] d IH]; cbn [map dict_get fst snd option_map];
    [reflexivity |].
  now destruct (String.eqb k k').
Qed.

Lemma list_available_tests_map :
  AvailableTests.tests list_available_tests
  = map (fun item => (fst item, test_info (snd item))) LAB_REFERENCE_RANGES.
Proof. reflexivity. Qed.

(** C9.  The handler takes no argument and is a total, pure read of the
    table: its [tests] dictionary has one entry per key of the table, seven
    in all and in the order of the table, and the entry of a key carries the
    unit, the minimum and the maximum of that key in the table. *)
Theorem list_available_tests_table :
  AvailableTests.tests list_available_tests =
  [ ("hba1c", TestInfo.mk "%" (ReferenceRange.mk 4.0 5.6));
    ("cholesterol_total", TestInfo.mk "mg/dL" (ReferenceRange.mk 0 200));
    ("cholesterol_ldl", TestInfo.mk "mg/dL" (ReferenceRange.mk 0 100));
    ("cholesterol_hdl", TestInfo.mk "mg/dL" (ReferenceRange.mk 40 60));
    ("crp", TestInfo.mk "mg/L" (ReferenceRange.mk 0 3.0));
    ("glucose_fasting", TestInfo.mk "mg/dL" (ReferenceRange.mk 70 100));
    ("triglycerides", TestInfo.mk "mg/dL" (ReferenceRange.mk 0 150)) ]
  /\ length (AvailableTests.tests list_available_tests) = 7%nat
  /\ dict_keys (AvailableTests.tests list_available_tests)
     = dict_keys LAB_REFERENCE_RANGES
  /\ forall k,
       dict_get (AvailableTests.tests list_available_tests) k
       = match dict_get LAB_REFERENCE_RANGES k with
         | Some config =>
             Some (TestInfo.mk (TestProfile.unit config)
                     (ReferenceRange.mk (TestProfile.min config)
                        (TestProfile.max config)))
         | None => None
         end.
Proof.
  split; [reflexivity |]. split; [reflexivity |]. split; [reflexivity |].
  intros k. rewrite list_available_tests_map, dict_get_map_values.
  now destruct (dict_get LAB_REFERENCE_RANGES k).
Qed.

(** ** The handler theorems at concrete requests *)

Lemma request_lab_results_error_iff_witness :
  exists response,
    fst (request_lab_results (E := Lcg.env)
           (LabRequest.mk "patient-1" ["unknown"; "glucose_fasting"]) Lcg.w0)
    = inr response.
Proof.
  apply (request_lab_results_error_iff (E := Lcg.env)).
  exists "glucose_fasting". split; [right; left; reflexivity | reflexivity].
Defined.

Lemma results_test_types_in_table_witness :
  Forall known_type
    [ LabResult.mk "hba1c" 5.24 "%" 4.0 5.6 1700000000000000%Z;
      LabResult.mk "crp" 1.83 "mg/L" 0 3.0 1700000000000001%Z ].
Proof.
  apply (proj1 (results_test_types_in_table (E := Lcg.env))
           (LabRequest.of_body "patient-1" None) Lcg.w0
           (LabResponse.mk "patient-1"
              [ LabResult.mk "hba1c" 5.24 "%" 4.0 5.6 1700000000000000%Z;
                LabResult.mk "crp" 1.83 "mg/L" 0 3.0 1700000000000001%Z ]
              "LAB-995735" 1700000000000002%Z)).
  vm_compute. reflexivity.
Defined.

Lemma response_patient_order_lab_id_witness :
  lab_id_format "LAB-995735".
Proof.
  apply (proj1 (response_patient_order_lab_id (E := Lcg.env))
           (LabRequest.of_body "patient-1" None) Lcg.w0
           (LabResponse.mk "patient-1"
              [ LabResult.mk "hba1c" 5.24 "%" 4.0 5.6 1700000000000000%Z;
                LabResult.mk "crp" 1.83 "mg/L" 0 3.0 1700000000000001%Z ]
              "LAB-995735" 1700000000000002%Z)).
  vm_compute. reflexivity.
Defined.

(** ** Concrete runs on the linear congruential source *)

Example request_unknown_only_run :
  fst (request_lab_results (E := Lcg.env)
         (LabRequest.mk "patient-1" ["not_a_real_test"]) Lcg.w0)
  = inl (HTTPException 400 no_valid_detail).
Proof. vm_compute. reflexivity. Qed.

Example request_empty_run :
  fst (request_lab_results (E := Lcg.env) (LabRequest.mk "patient-1" []) Lcg.w0)
  = inl (HTTPException 400 no_valid_detail).
Proof. vm_compute. reflexivity. Qed.

Example request_default_run :
  fst (request_lab_results (E := Lcg.env)
         (LabRequest.of_body "patient-1" None) Lcg.w0)
  = inr (LabResponse.mk "patient-1"
           [ LabResult.mk "hba1c" 5.24 "%" 4.0 5.6 1700000000000000%Z;
             LabResult.mk "crp" 1.83 "mg/L" 0 3.0 1700000000000001%Z ]
           "LAB-995735" 1700000000000002%Z).
Proof. vm_compute. reflexivity. Qed.

Example get_lab_results_run_types :
  match fst (get_lab_results (E := Lcg.env) "patient-1" Lcg.w0) with
  | inr response =>
      (map LabResult.test_type (LabResponse.results response),
       LabResponse.lab_id response)
  | inl _ => ([], "")
  end
  = (["hba1c"; "cholesterol_total"; "cholesterol_ldl"; "cholesterol_hdl";
      "crp"; "glucose_fasting"; "triglycerides"], "LAB-336613").
Proof. vm_compute. reflexivity. Qed.

(* ===================================================================== *)
(** * Further properties of the handlers *)

(** ** How the handlers compose *)

Section Composition.
Context {W : Type} {E : Env W}.

(** The loop treats a list of requested types as the list of those that
    are keys. *)
Lemma request_loop_filter (test_types : list string) :
  forall (results : list LabResult.t) (w : W),
    request_loop test_types results w
    = request_loop (filter (dict_contains LAB_REFERENCE_RANGES) test_types)
        results w.
Proof.
  induction test_types as [| t rest IH]; intros results w; [reflexivity |].
  cbn [filter].
  destruct (dict_contains LAB_REFERENCE_RANGES t) eqn:Hin.
  - cbn [request_loop]. rewrite Hin. cbn [negb].
    apply dict_contains_true in Hin as [config Hget].
    rewrite !(bind_ok _ _ _ _ _ (dict_getitem_ok _ _ _ w Hget)).
    destruct (append_result_run t config w Hget) as (r & w1 & _ & _ & Hstep).
    rewrite (Hstep (fun r => request_loop rest (results ++ [r])%list)).
    rewrite (Hstep (fun r => request_loop (filter _ rest) (results ++ [r])%list)).
    apply IH.
  - cbn [request_loop]. rewrite Hin. cbn [negb]. apply IH.
Qed.

(** Over items whose keys look up to their own profile, the loop of the
    full panel is the loop of a request for those keys. *)
Lemma panel_loop_request_loop (items : list (string * TestProfile.t)) :
  (forall k c, In (k, c) items -> dict_get LAB_REFERENCE_RANGES k = Some c) ->
  forall (results : list LabResult.t) (w : W),
    panel_loop items results w = request_loop (map fst items) results w.
Proof.
  induction items as [| [t config] rest IH]; intros Hitems results w;
    [reflexivity |].
  cbn [panel_loop request_loop map fst].
  assert (Hget : dict_get LAB_REFERENCE_RANGES t = Some config).
  { apply Hitems. now left. }
  assert (Hin : dict_contains LAB_REFERENCE_RANGES t = true).
  { apply dict_contains_true. now exists config. }
  rewrite Hin. cbn [negb].
  rewrite (bind_ok _ _ _ _ _ (dict_getitem_ok _ _ _ w Hget)).
  destruct (append_result_run t config w Hget) as (r & w1 & _ & _ & Hstep).
  rewrite (Hstep (fun r => panel_loop rest (results ++ [r])%list)).
  rewrite (Hstep (fun r => request_loop (map fst rest) (results ++ [r])%list)).
  apply IH. intros k c H. apply Hitems. now right.
Qed.

Lemma request_lab_results_loop_ext (patient_id : string)
    (l1 l2 : list string) (w : W) :
  request_loop l1 [] w = request_loop l2 [] w ->
  request_lab_results (LabRequest.mk patient_id l1) w
  = request_lab_results (LabRequest.mk patient_id l2) w.
Proof.
  intros H. unfold request_lab_results, bind.
  cbn [LabRequest.test_types LabRequest.patient_id]. now rewrite H.
Qed.

(** X2.  Requested test types that are not keys of the table have no
    effect at all: the handler returns the same outcome, and leaves the
    random source and the clock in the same state, as for the request
    without them. *)
Theorem request_lab_results_ignores_unknown (request : LabRequest.t) (w : W) :
  request_lab_results request w
  = request_lab_results
      (LabRequest.mk (LabRequest.patient_id request)
         (filter (dict_contains LAB_REFERENCE_RANGES)
            (LabRequest.test_types request))) w.
Proof.
  destruct request as [patient_id test_types].
  cbn [LabRequest.patient_id LabRequest.test_types].
  apply request_lab_results_loop_ext, request_loop_filter.
Qed.

Lemma get_lab_results_as_request (patient_id : string) (w : W) :
  get_lab_results patient_id w
  = request_lab_results
      (LabRequest.mk patient_id (dict_keys LAB_REFERENCE_RANGES)) w.
Proof.
  unfold get_lab_results, request_lab_results.
  cbn [LabRequest.patient_id LabRequest.test_types].
  unfold dict_items, dict_keys.
  assert (Hloop : panel_loop LAB_REFERENCE_RANGES [] w
                  = request_loop (map fst LAB_REFERENCE_RANGES) [] w).
  { apply panel_loop_request_loop. intros k c.
    apply dict_get_NoDup, LAB_REFERENCE_RANGES_NoDup. }
  destruct (request_loop_spec (map fst LAB_REFERENCE_RANGES) [] w)
    as (rs & w1 & Hrun & Hmap & _).
  rewrite Hrun in Hloop. cbn [app] in Hloop, Hrun.
  rewrite (bind_ok _ _ _ _ _ Hloop), (bind_ok _ _ _ _ _ Hrun).
  destruct rs as [| r rs]; [discriminate Hmap | reflexivity].
Qed.

(** X3.  The full panel is the answer to a request for every test that
    [root] advertises: same response, same state of the random source and
    of the clock afterwards. *)
Theorem get_lab_results_is_request_for_all (patient_id : string) (w : W) :
  get_lab_results patient_id w
  = request_lab_results
      (LabRequest.mk patient_id (RootInfo.available_tests root)) w.
Proof. exact (get_lab_results_as_request patient_id w). Qed.

(** X4.  A request none of whose test types is a key is rejected before
    anything is drawn or read: the world after the 400 error is the world
    before the call. *)
Theorem request_lab_results_rejects_untouched (request : LabRequest.t) (w : W) :
  (forall t, In t (LabRequest.test_types request) ->
             dict_contains LAB_REFERENCE_RANGES t = false) ->
  request_lab_results request w = (inl (HTTPException 400 no_valid_detail), w).
Proof.
  intros Hnone. apply filter_nil_iff in Hnone.
  destruct request as [patient_id test_types].
  cbn [LabRequest.test_types] in Hnone.
  rewrite (request_lab_results_loop_ext patient_id test_types [] w).
  - reflexivity.
  - rewrite request_loop_filter, Hnone. reflexivity.
Qed.

(** X1.  The tests that [root] advertises are exactly the test types the
    request handler accepts: a request for one test type alone is answered
    with a response, holding one result of that type, if and only if [root]
    lists the type. *)
Theorem root_advertises_accepted_tests
    (t : string) (patient_id : string) (w : W) :
  In t (RootInfo.available_tests root)
  <-> exists response r,
        fst (request_lab_results (LabRequest.mk patient_id [t]) w)
        = inr response
        /\ LabResponse.results response = [r]
        /\ LabResult.test_type r = t.
Proof.
  change (RootInfo.available_tests root) with (dict_keys LAB_REFERENCE_RANGES).
  rewrite <- dict_contains_keys.
  destruct (request_lab_results_run (LabRequest.mk patient_id [t]) w)
    as (rs & w1 & Hmap & _ & Hrun).
  rewrite Hrun. cbn [LabRequest.test_types filter] in Hmap.
  destruct (dict_contains LAB_REFERENCE_RANGES t).
  - destruct rs as [| r [| r2 rs]]; try discriminate Hmap.
    injection Hmap as Htt.
    split; [intros _ | reflexivity].
    exists (fst (respond patient_id [r] w1)), r. cbn [fst].
    repeat split. exact Htt.
  - destruct rs as [| r rs]; [| discriminate Hmap].
    split; [discriminate |]. intros (response & r & H & _). discriminate H.
Qed.

(** X5.  Every result of a response of the request handler is built from
    the table entry of its own test type (its unit, reference minimum and
    reference maximum are those of the entry) and has a non-negative value
    with two decimal places. *)
Theorem request_lab_results_from_table
    (request : LabRequest.t) (w : W) (response : LabResponse.t) :
  fst (request_lab_results request w) = inr response ->
  Forall from_table (LabResponse.results response).
Proof.
  destruct (request_lab_results_run request w) as (rs & w1 & _ & Hall & Hrun).
  rewrite Hrun. destruct rs as [| r rs]; cbn [fst]; [discriminate |].
  intros [= <-]. exact Hall.
Qed.
End Composition.

(** ** The generator at the ends of its parameters *)

Section GeneratorEdges.
Context {W : Type} {E : Env W}.

(** X6.  For a test type of the table, an abnormal probability of 0 or less
    always samples the normal population, and one of 1 or more always the
    abnormal population, whatever the uniform draw is. *)
Theorem generate_lab_value_probability_bounds
    (test_type : string) (config : TestProfile.t) (w : W) :
  dict_get LAB_REFERENCE_RANGES test_type = Some config ->
  let w1 := snd (random w) in
  let normal := gauss (TestProfile.normal_mean config)
                      (TestProfile.normal_std config) w1 in
  let abnormal := gauss (TestProfile.abnormal_mean config)
                        (TestProfile.abnormal_std config) w1 in
  (forall p, p <= 0 ->
     generate_lab_value test_type p w
     = (inr (py_round (py_max 0 (fst normal)) 2), snd normal))
  /\ (forall p, 1 <= p ->
     generate_lab_value test_type p w
     = (inr (py_round (py_max 0 (fst abnormal)) 2), snd abnormal)).
Proof.
  intros Hget w1 normal abnormal.
  destruct (random_range w) as [Hlo Hhi].
  split; intros p Hp; rewrite (generate_lab_value_known _ p w _ Hget).
  - assert (Hf : Qltb (fst (random w)) p = false).
    { destruct (Qltb (fst (random w)) p) eqn:Hb; [| reflexivity].
      apply Qltb_true in Hb. lra. }
    now rewrite Hf.
  - assert (Ht : Qltb (fst (random w)) p = true) by (apply Qltb_true; lra).
    now rewrite Ht.
Qed.

(** X7.  For a test type of the table, a Gaussian sample that is zero or
    negative is returned as zero. *)
Theorem generate_lab_value_clamps_to_zero
    (test_type : string) (p : Q) (config : TestProfile.t) (w : W) :
  dict_get LAB_REFERENCE_RANGES test_type = Some config ->
  fst (if Qltb (fst (random w)) p
       then gauss (TestProfile.abnormal_mean config)
                  (TestProfile.abnormal_std config) (snd (random w))
       else gauss (TestProfile.normal_mean config)
                  (TestProfile.normal_std config) (snd (random w))) <= 0 ->
  exists v w', generate_lab_value test_type p w = (inr v, w') /\ v == 0.
Proof.
  intros Hget Hneg.
  rewrite (generate_lab_value_known _ p w _ Hget).
  eexists _, _. split; [reflexivity |].
  rewrite (proj2 (py_max_clamp _) Hneg). reflexivity.
Qed.
End GeneratorEdges.

(** ** Timestamps under a clock that never runs backwards *)

Section Timestamps.
Context {W : Type} {E : Env W}.
Variable now : W -> datetime.
Hypothesis clock : monotone_clock now.

Lemma generate_lab_value_keeps_clock (test_type : string) (p : Q) (w : W) :
  exists v w', generate_lab_value test_type p w = (inr v, w')
               /\ (now w <= now w')%Z.
Proof.
  destruct (dict_get LAB_REFERENCE_RANGES test_type) as [config |] eqn:Hget.
  - rewrite (generate_lab_value_known _ p w _ Hget).
    eexists _, _. split; [reflexivity |].
    pose proof (random_keeps_clock now clock w) as H1.
    destruct (Qltb (fst (random w)) p);
      match goal with
      | |- (_ <= now (snd (gauss ?m ?s ?w1)))%Z =>
          pose proof (gauss_keeps_clock now clock m s w1)
      end; lia.
  - apply dict_contains_false in Hget.
    rewrite (generate_lab_value_unknown _ p w Hget).
    eexists _, _. split; [reflexivity |].
    apply (uniform_keeps_clock now clock).
Qed.

(** The results the loop appends are stamped in order, between the time
    reached before the loop and the time reached after it. *)
Lemma request_loop_timestamps (test_types : list string) :
  forall (results : list LabResult.t) (w : W),
  exists rs w',
    request_loop test_types results w = (inr (results ++ rs)%list, w')
    /\ (now w <= now w')%Z
    /\ Forall (fun r => (now w <= LabResult.timestamp r <= now w')%Z) rs
    /\ StronglySorted timestamp_le rs.
Proof.
  induction test_types as [| t rest IH]; intros results w; cbn [request_loop].
  - exists [], w. rewrite app_nil_r.
    split; [reflexivity |]. split; [lia |]. split; constructor.
  - destruct (dict_contains LAB_REFERENCE_RANGES t) eqn:Hin; cbn [negb];
      [| exact (IH results w)].
    apply dict_contains_true in Hin as [config Hget].
    rewrite (bind_ok _ _ _ _ _ (dict_getitem_ok _ _ _ w Hget)).
    destruct (generate_lab_value_keeps_clock t default_abnormal_probability w)
      as (v & w1 & Hgen & Hw1).
    rewrite (bind_ok _ _ _ _ _ Hgen).
    rewrite (bind_ok _ _ _ _ _ (perform_run _ w1)).
    pose proof (utcnow_reached now clock w1) as Hts1.
    pose proof (utcnow_advances now clock w1) as Hts2.
    set (r := LabResult.mk t v _ _ _ (fst (utcnow w1))).
    destruct (IH (results ++ [r])%list (snd (utcnow w1)))
      as (rs & w' & Hrun & Hw' & Hall & Hsorted).
    exists (r :: rs), w'. rewrite Hrun, <- app_assoc. cbn [app].
    split; [reflexivity |]. split; [lia |]. split.
    + constructor.
      * subst r; cbn [LabResult.timestamp]. lia.
      * eapply Forall_impl; [| exact Hall]. cbn beta. intros a Ha. lia.
    + constructor; [exact Hsorted |].
      eapply Forall_impl; [| exact Hall]. cbn beta. intros a Ha.
      unfold timestamp_le. subst r; cbn [LabResult.timestamp]. lia.
Qed.

Lemma request_lab_results_timestamps_aux
    (request : LabRequest.t) (w : W) (response : LabResponse.t) :
  fst (request_lab_results request w) = inr response ->
  StronglySorted timestamp_le (LabResponse.results response)
  /\ Forall (fun r => (now w <= LabResult.timestamp r
                       <= LabResponse.processed_at response)%Z)
       (LabResponse.results response).
Proof.
  destruct (request_loop_timestamps (LabRequest.test_types request) [] w)
    as (rs & w1 & Hrun & Hw1 & Hall & Hsorted).
  unfold request_lab_results. rewrite (bind_ok _ _ _ _ _ Hrun). cbn [app].
  destruct rs as [| r rs]; [discriminate |].
  rewrite (bind_ok _ _ _ _ _ (perform_run _ w1)).
  rewrite (bind_ok _ _ _ _ _ (perform_run _ _)).
  cbn [ret fst]. intros [= <-].
  cbn [LabResponse.results LabResponse.processed_at].
  split; [exact Hsorted |].
  pose proof (randint_keeps_clock now clock 100000 999999 w1) as Hr.
  pose proof (utcnow_reached now clock (snd (randint 100000 999999 w1))) as Hp.
  eapply Forall_impl; [| exact Hall]. cbn beta. intros a Ha. lia.
Qed.

(** X8.  When the clock never runs backwards, the results of a response of
    either handler are stamped in the order they are listed, none before
    the call started and none after [processed_at]. *)
Theorem responses_timestamps_ordered :
  (forall request w response,
      fst (request_lab_results request w) = inr response ->
      StronglySorted timestamp_le (LabResponse.results response)
      /\ Forall (fun r => (now w <= LabResult.timestamp r
                           <= LabResponse.processed_at response)%Z)
           (LabResponse.results response))
  /\ (forall patient_id w response,
      fst (get_lab_results patient_id w) = inr response ->
      StronglySorted timestamp_le (LabResponse.results response)
      /\ Forall (fun r => (now w <= LabResult.timestamp r
                           <= LabResponse.processed_at response)%Z)
           (LabResponse.results response)).
Proof.
  split.
  - exact request_lab_results_timestamps_aux.
  - intros patient_id w response. rewrite get_lab_results_as_request.
    apply request_lab_results_timestamps_aux.
Qed.
End Timestamps.

(** ** The profiles of the table *)

Ltac q_compare := unfold Qle, Qlt; cbn; lia.

(** X9.  Every profile of the table has a non-negative minimum below its
    maximum, a normal mean inside the reference range, an abnormal mean
    outside it, and positive standard deviations. *)
Theorem LAB_REFERENCE_RANGES_profiles (k : string) (config : TestProfile.t) :
  dict_get LAB_REFERENCE_RANGES k = Some config ->
  0 <= TestProfile.min config
  /\ TestProfile.min config < TestProfile.max config
  /\ TestProfile.min config <= TestProfile.normal_mean config
  /\ TestProfile.normal_mean config <= TestProfile.max config
  /\ (TestProfile.abnormal_mean config < TestProfile.min config
      \/ TestProfile.max config < TestProfile.abnormal_mean config)
  /\ 0 < TestProfile.normal_std config
  /\ 0 < TestProfile.abnormal_std config.
Proof.
  intros Hget. apply dict_get_In in Hget.
  unfold LAB_REFERENCE_RANGES in Hget. cbn [In] in Hget.
  repeat (destruct Hget as [Hget | Hget];
          [injection Hget as _ <-;
           repeat split; try q_compare;
           first [left; q_compare | right; q_compare] |]).
  contradiction.
Qed.

(** ** The identifier of a response, read back *)

Lemma digit_char_value (d : Z) :
  (0 <= d < 10)%Z -> (Z.of_nat (nat_of_ascii (digit_char d)) - 48 = d)%Z.
Proof.
  intros H.
  assert (Hd : (d = 0 \/ d = 1 \/ d = 2 \/ d = 3 \/ d = 4 \/ d = 5 \/ d = 6
                \/ d = 7 \/ d = 8 \/ d = 9)%Z) by lia.
  repeat (destruct Hd as [-> | Hd]; [reflexivity |]); subst d; reflexivity.
Qed.

Lemma str_digits_length_ge (fuel : nat) :
  forall (n : Z) (acc : string),
    (String.length acc <= String.length (str_digits fuel n acc))%nat.
Proof.
  induction fuel as [| fuel IH]; intros n acc; cbn [str_digits]; [lia |].
  destruct (n / 10 =? 0)%Z.
  - cbn [String.length]. lia.
  - specialize (IH (n / 10)%Z (String (digit_char (n mod 10)) acc)).
    cbn [String.length] in IH. lia.
Qed.

(** Reading the printed digits of [n] onto [a] shifts [a] by their number
    and adds [n]. *)
Lemma str_digits_value (fuel : nat) :
  forall (n : Z) (acc : string) (a : Z),
    (0 <= n < 2 ^ Z.of_nat fuel)%Z ->
    digits_value (str_digits fuel n acc) a
    = digits_value acc
        (a * 10 ^ (Z.of_nat (String.length (str_digits fuel n acc))
                   - Z.of_nat (String.length acc)) + n)%Z.
Proof.
  induction fuel as [| fuel IH]; intros n acc a Hn.
  - cbn [str_digits]. rewrite Z.sub_diag.
    change (2 ^ Z.of_nat 0)%Z with 1%Z in Hn.
    f_equal. change (10 ^ 0)%Z with 1%Z. lia.
  - cbn [str_digits].
    assert (Hpow : (2 ^ Z.of_nat (S fuel) = 2 * 2 ^ Z.of_nat fuel)%Z).
    { rewrite Nat2Z.inj_succ, Z.pow_succ_r; lia. }
    assert (Hpos : (0 < 2 ^ Z.of_nat fuel)%Z) by (apply Z.pow_pos_nonneg; lia).
    pose proof (Z.mod_pos_bound n 10 ltac:(lia)) as Hmod.
    pose proof (Z.div_mod n 10 ltac:(lia)) as Hdm.
    destruct (Z.eqb_spec (n / 10) 0) as [H0 | Hne].
    + cbn [digits_value String.length].
      rewrite digit_char_value by exact Hmod.
      f_equal.
      replace (Z.of_nat (S (String.length acc)) - Z.of_nat (String.length acc))%Z
        with 1%Z by lia.
      change (10 ^ 1)%Z with 10%Z. lia.
    + set (acc' := String (digit_char (n mod 10)) acc).
      assert (Hq : (0 <= n / 10 < 2 ^ Z.of_nat fuel)%Z).
      { split; [apply Z.div_pos; lia | apply Z.div_lt_upper_bound; lia]. }
      rewrite (IH (n / 10)%Z acc' a Hq).
      pose proof (str_digits_length_ge fuel (n / 10)%Z acc') as Hlen.
      set (L := String.length (str_digits fuel (n / 10) acc')) in *.
      subst acc'. cbn [digits_value String.length] in *.
      rewrite digit_char_value by exact Hmod.
      f_equal.
      replace (Z.of_nat L - Z.of_nat (String.length acc))%Z
        with (Z.succ (Z.of_nat L - Z.of_nat (S (String.length acc))))%Z by lia.
      rewrite Z.pow_succ_r by lia. lia.
Qed.

Lemma py_str_int_value (n : Z) :
  (0 <= n)%Z -> digits_value (py_str_int n) 0 = n.
Proof.
  intros Hn. unfold py_str_int.
  destruct (Z.ltb_spec n 0) as [Hneg | _]; [lia |].
  rewrite str_digits_value.
  - cbn [digits_value]. lia.
  - split; [exact Hn |].
    rewrite Nat2Z.inj_succ, Z2Nat.id by apply Z.log2_nonneg.
    destruct (Z.eq_dec n 0) as [-> | Hnz]; [reflexivity |].
    apply Z.log2_spec. lia.
Qed.

(** X10.  The identifier of a response determines the integer that was
    drawn for it: reading the digits after [LAB-] gives the integer back,
    so two identifiers are equal only when their integers are. *)
Theorem lab_id_determines_number (n m : Z) :
  (0 <= n)%Z -> (0 <= m)%Z ->
  digits_value (py_str_int n) 0 = n
  /\ ("LAB-" ++ py_str_int n = "LAB-" ++ py_str_int m -> n = m).
Proof.
  intros Hn Hm. split; [now apply py_str_int_value |].
  intros Heq. cbn [String.append] in Heq. injection Heq as Heq.
  rewrite <- (py_str_int_value n Hn), <- (py_str_int_value m Hm).
  now rewrite Heq.
Qed.

(** ** The further properties at concrete inputs *)

Lemma Lcg_monotone_clock : monotone_clock (E := Lcg.env) Lcg.clock.
Proof.
  constructor; intros; cbn; lia.
Qed.

Lemma request_lab_results_rejects_untouched_witness :
  request_lab_results (E := Lcg.env)
    (LabRequest.mk "patient-1" ["cholesterol"; "not_a_real_test"]) Lcg.w0
  = (inl (HTTPException 400 no_valid_detail), Lcg.w0).
Proof.
  apply (request_lab_results_rejects_untouched (E := Lcg.env)).
  cbn [LabRequest.test_types In].
  intros t [<- | [<- | []]]; reflexivity.
Defined.

Lemma request_lab_results_from_table_witness :
  Forall from_table
    [ LabResult.mk "hba1c" 5.24 "%" 4.0 5.6 1700000000000000%Z;
      LabResult.mk "crp" 1.83 "mg/L" 0 3.0 1700000000000001%Z ].
Proof.
  apply (request_lab_results_from_table (E := Lcg.env)
           (LabRequest.of_body "patient-1" None) Lcg.w0
           (LabResponse.mk "patient-1"
              [ LabResult.mk "hba1c" 5.24 "%" 4.0 5.6 1700000000000000%Z;
                LabResult.mk "crp" 1.83 "mg/L" 0 3.0 1700000000000001%Z ]
              "LAB-995735" 1700000000000002%Z)).
  vm_compute. reflexivity.
Defined.

Lemma generate_lab_value_probability_bounds_witness :
  generate_lab_value (E := Lcg.env) "glucose_fasting" 1 Lcg.w0
  = (inr (py_round
            (py_max 0 (fst (Lcg.gauss 140 30 (snd (Lcg.random Lcg.w0))))) 2),
     snd (Lcg.gauss 140 30 (snd (Lcg.random Lcg.w0)))).
Proof.
  apply (generate_lab_value_probability_bounds (E := Lcg.env)
           "glucose_fasting" (TestProfile.mk "mg/dL" 70 100 90 8 140 30)
           Lcg.w0 eq_refl).
  q_compare.
Defined.

Lemma generate_lab_value_clamps_to_zero_witness :
  exists v w',
    generate_lab_value (E := Lcg.env) "crp" 0.3 (Lcg.mk 18 0) = (inr v, w')
    /\ v == 0.
Proof.
  apply (generate_lab_value_clamps_to_zero (E := Lcg.env)
           "crp" 0.3 (TestProfile.mk "mg/L" 0 3.0 1.0 0.5 8.0 3.0)
           (Lcg.mk 18 0) eq_refl).
  apply Qle_bool_iff. vm_compute. reflexivity.
Defined.

Lemma responses_timestamps_ordered_witness :
  StronglySorted timestamp_le
    [ LabResult.mk "hba1c" 5.24 "%" 4.0 5.6 1700000000000000%Z;
      LabResult.mk "crp" 1.83 "mg/L" 0 3.0 1700000000000001%Z ]
  /\ Forall (fun r => (1700000000000000 <= LabResult.timestamp r
                       <= 1700000000000002)%Z)
       [ LabResult.mk "hba1c" 5.24 "%" 4.0 5.6 1700000000000000%Z;
         LabResult.mk "crp" 1.83 "mg/L" 0 3.0 1700000000000001%Z ].
Proof.
  apply (proj1 (responses_timestamps_ordered (E := Lcg.env) Lcg.clock
                  Lcg_monotone_clock)
           (LabRequest.of_body "patient-1" None) Lcg.w0
           (LabResponse.mk "patient-1"
              [ LabResult.mk "hba1c" 5.24 "%" 4.0 5.6 1700000000000000%Z;
                LabResult.mk "crp" 1.83 "mg/L" 0 3.0 1700000000000001%Z ]
              "LAB-995735" 1700000000000002%Z)).
  vm_compute. reflexivity.
Defined.

Lemma LAB_REFERENCE_RANGES_profiles_witness :
  0 <= 40
  /\ 40 < 60
  /\ 40 <= 55
  /\ 55 <= 60
  /\ (35 < 40 \/ 60 < 35)
  /\ 0 < 10
  /\ 0 < 8.
Proof.
  apply (LAB_REFERENCE_RANGES_profiles "cholesterol_hdl"
           (TestProfile.mk "mg/dL" 40 60 55 10 35 8)).
  reflexivity.
Defined.

Lemma lab_id_determines_number_witness :
  digits_value (py_str_int 995735) 0 = 995735%Z
  /\ ("LAB-" ++ py_str_int 995735 = "LAB-" ++ py_str_int 336613 ->
      995735%Z = 336613%Z).
Proof.
  apply (lab_id_determines_number 995735 336613); lia.
Defined.

(** A request with a repeated and an unknown test type. *)
Example request_repeated_run :
  match fst (request_lab_results (E := Lcg.env)
               (LabRequest.mk "patient-1" ["crp"; "nope"; "crp"]) Lcg.w0) with
  | inr response => map LabResult.test_type (LabResponse.results response)
  | inl _ => []
  end
  = ["crp"; "crp"].
Proof. vm_compute. reflexivity. Qed.
